(** * The AI-CFO financial scenario and scoring engine

    A shallow embedding of [mockEngine.ts] (class [MockDataEngine] and the
    constant [BASE_FINANCIALS]) together with the properties its
    specification states about the what-if projector, the credit scorer and
    the funding-readiness scorer.

    Numbers.  The engine computes on JavaScript numbers.  They are modelled
    as exact rationals extended with [Infinity], [-Infinity] and [NaN], with
    the arithmetic JavaScript gives to these values (a division by zero is
    an infinity or [NaN], [NaN] is contagious, comparisons with [NaN] are
    false).  Two aspects of binary64 are outside the model: results are not
    rounded to 53 bits and never overflow, and there is a single zero, read
    as [+0].

    The theorems about the engine are stated so as not to lean on this
    idealisation.  Those that evaluate the engine do so at inputs whose sums
    and products are exact in binary64; a quotient is compared with the
    same division, with the decimal literal of the same real, or with
    bounds it misses by a wide margin.  The others follow the structure of
    the code and use only comparisons, [Math.min], [Math.max] and the
    monotonicity of division and of [Math.round]. *)

From Stdlib Require Import QArith Qround Qabs Qminmax Lqa ZArith List Bool String.
Import ListNotations.

Open Scope Q_scope.

(** ** JavaScript numbers *)

Inductive number : Set :=
| Fin (q : Q)
| Infinity
| NegInfinity
| NaN.

Declare Scope js_scope.
Delimit Scope js_scope with js.
Bind Scope js_scope with number.

(** The sign of a rational, as the three-way comparison with zero. *)
Definition Qsign (q : Q) : comparison := q ?= 0.

Definition neg (a : number) : number :=
  match a with
  | Fin x => Fin (- x)
  | Infinity => NegInfinity
  | NegInfinity => Infinity
  | NaN => NaN
  end.

Definition add (a b : number) : number :=
  match a, b with
  | NaN, _ | _, NaN => NaN
  | Fin x, Fin y => Fin (x + y)
  | Infinity, NegInfinity | NegInfinity, Infinity => NaN
  | Infinity, _ | _, Infinity => Infinity
  | NegInfinity, _ | _, NegInfinity => NegInfinity
  end.

Definition sub (a b : number) : number := add a (neg b).

(** An infinity scaled by a finite factor: the factor's sign decides, and
    [0 * Infinity] is [NaN]. *)
Definition scale_inf (x : Q) (pos : bool) : number :=
  match Qsign x with
  | Gt => if pos then Infinity else NegInfinity
  | Lt => if pos then NegInfinity else Infinity
  | Eq => NaN
  end.

Definition mul (a b : number) : number :=
  match a, b with
  | NaN, _ | _, NaN => NaN
  | Fin x, Fin y => Fin (x * y)
  | Fin x, Infinity | Infinity, Fin x => scale_inf x true
  | Fin x, NegInfinity | NegInfinity, Fin x => scale_inf x false
  | Infinity, Infinity | NegInfinity, NegInfinity => Infinity
  | Infinity, NegInfinity | NegInfinity, Infinity => NegInfinity
  end.

(** Division.  A finite dividend over zero is an infinity of the dividend's
    sign, [0 / 0] is [NaN]; a finite dividend over an infinity is zero; an
    infinity over a finite divisor keeps or flips its sign with the
    divisor's (zero counts as positive); an infinity over an infinity is
    [NaN]. *)
Definition div (a b : number) : number :=
  match a, b with
  | NaN, _ | _, NaN => NaN
  | Fin x, Fin y =>
      match Qsign y with
      | Eq => match Qsign x with
              | Gt => Infinity
              | Lt => NegInfinity
              | Eq => NaN
              end
      | _ => Fin (x / y)
      end
  | Fin _, Infinity | Fin _, NegInfinity => Fin 0
  | Infinity, Fin y =>
      match Qsign y with Lt => NegInfinity | _ => Infinity end
  | NegInfinity, Fin y =>
      match Qsign y with Lt => Infinity | _ => NegInfinity end
  | Infinity, _ | NegInfinity, _ => NaN
  end.

(** [a > b] and [a < b]: false as soon as one side is [NaN]. *)
Definition gtb (a b : number) : bool :=
  match a, b with
  | NaN, _ | _, NaN => false
  | Fin x, Fin y => match x ?= y with Gt => true | _ => false end
  | Fin _, NegInfinity => true
  | Fin _, Infinity => false
  | Infinity, Infinity => false
  | Infinity, _ => true
  | NegInfinity, _ => false
  end.

Definition ltb (a b : number) : bool := gtb b a.

(** [a === b] on numbers: [NaN] is not equal to itself. *)
Definition strict_eq (a b : number) : bool :=
  match a, b with
  | Fin x, Fin y => Qeq_bool x y
  | Infinity, Infinity | NegInfinity, NegInfinity => true
  | _, _ => false
  end.

Definition Math_max (a b : number) : number :=
  match a, b with
  | NaN, _ | _, NaN => NaN
  | Fin x, Fin y => Fin (Qmax x y)
  | Infinity, _ | _, Infinity => Infinity
  | NegInfinity, c | c, NegInfinity => c
  end.

Definition Math_min (a b : number) : number :=
  match a, b with
  | NaN, _ | _, NaN => NaN
  | Fin x, Fin y => Fin (Qmin x y)
  | NegInfinity, _ | _, NegInfinity => NegInfinity
  | Infinity, c | c, Infinity => c
  end.

Definition Math_abs (a : number) : number :=
  match a with
  | Fin x => Fin (Qabs x)
  | Infinity | NegInfinity => Infinity
  | NaN => NaN
  end.

(** [Math.round]: the nearest integer, a tie going up. *)
Definition Math_round (a : number) : number :=
  match a with
  | Fin x => Fin (inject_Z (Qfloor (x + 0.5)))
  | _ => a
  end.

Infix "+" := add : js_scope.
Infix "-" := sub : js_scope.
Infix "*" := mul : js_scope.
Infix "/" := div : js_scope.
Infix ">" := gtb : js_scope.
Infix "<" := ltb : js_scope.
Infix "===" := strict_eq (at level 70, no associativity) : js_scope.

(** Decimal and integer literals of the source are finite numbers. *)
Coercion Fin : Q >-> number.

(** *** Relations on numbers used in statements *)

(** Two numbers denote the same value.  (Rationals are compared with [==],
    and here [NaN] is the same value as [NaN].) *)
Definition same (a b : number) : Prop :=
  match a, b with
  | Fin x, Fin y => x == y
  | Infinity, Infinity | NegInfinity, NegInfinity | NaN, NaN => True
  | _, _ => False
  end.

Definition sameb (a b : number) : bool :=
  match a, b with
  | Fin x, Fin y => Qeq_bool x y
  | Infinity, Infinity | NegInfinity, NegInfinity | NaN, NaN => true
  | _, _ => false
  end.

(** The order of the extended rationals; nothing is related to [NaN]. *)
Definition num_le (a b : number) : Prop :=
  match a, b with
  | NaN, _ | _, NaN => False
  | Fin x, Fin y => x <= y
  | NegInfinity, _ | _, Infinity => True
  | _, _ => False
  end.

Definition num_lt (a b : number) : Prop :=
  match a, b with
  | NaN, _ | _, NaN => False
  | Fin x, Fin y => x < y
  | Infinity, _ | _, NegInfinity => False
  | _, _ => True
  end.

Definition finite (a : number) : Prop :=
  match a with Fin _ => True | _ => False end.

Definition finiteb (a : number) : bool :=
  match a with Fin _ => true | _ => false end.

Notation "a [=] b" := (same a b) (at level 70, no associativity).
Notation "a [<=] b" := (num_le a b) (at level 70, no associativity).
Notation "a [<] b" := (num_lt a b) (at level 70, no associativity).

(** ** The data model ([types.ts]) *)

Record Expenses : Set := {
  engineering : number;
  marketing : number;
  sales : number;
  operations : number;
  aws : number
}.

Record MockFinancials : Set := {
  mrr : number;
  burn : number;
  runway : number;
  cash : number;
  expenses : Expenses;
  growth : number;
  revenue : number
}.

Record WhatIfParams : Set := {
  spendChange : number;
  hiringRate : number;
  revenueGrowth : number
}.

Module CreditScoreBreakdown.
Record t : Set := {
  revenueGrowth : number;
  burnStability : number;
  cashRunway : number;
  debtRatio : number;
  paymentReliability : number;
  profitabilityIndex : number;
  liquidityIndex : number
}.
End CreditScoreBreakdown.

Module CreditScore.
Record t : Set := {
  score : number;
  breakdown : CreditScoreBreakdown.t
}.
End CreditScore.

Inductive Status : Set := good | warning | critical.

Module Factor.
Record t : Set := {
  name : string;
  score : number;
  status : Status
}.
End Factor.

Module FundingReadiness.
Record t : Set := {
  score : number;
  factors : list Factor.t;
  recommendation : string
}.
End FundingReadiness.

(** [Object.values] of an expenses object: the values in insertion order. *)
Definition Object_values (e : Expenses) : list number :=
  [engineering e; marketing e; sales e; operations e; aws e].

(** [xs.reduce((a, b) => a + b, 0)]. *)
Definition reduce_add (xs : list number) : number :=
  fold_left add xs (Fin 0).

(** ** The engine ([mockEngine.ts]) *)

Section Engine.
Local Open Scope string_scope.
Local Open Scope js_scope.

Definition BASE_FINANCIALS : MockFinancials := {|
  mrr := 45000;
  burn := 85000;
  runway := 6.2;
  cash := 527000;
  expenses := {|
    engineering := 45000;
    marketing := 18000;
    sales := 12000;
    operations := 7000;
    aws := 3000
  |};
  growth := 12.5;
  revenue := 45000
|}.

(** The two private fields of [MockDataEngine]. *)
Record MockDataEngine : Set := {
  baseData : MockFinancials;
  currentParams : WhatIfParams
}.

(** [new MockDataEngine()]. *)
Definition constructor : MockDataEngine := {|
  baseData := BASE_FINANCIALS;
  currentParams := {| spendChange := 0; hiringRate := 0; revenueGrowth := 0 |}
|}.

Definition mockEngine : MockDataEngine := constructor.

(** [applyWhatIf] stores its argument in [currentParams] and returns the
    projected snapshot; the engine after the call is the second component. *)
Definition applyWhatIf (this : MockDataEngine) (params : WhatIfParams)
  : MockFinancials * MockDataEngine :=
  let this' := {| baseData := baseData this; currentParams := params |} in
  let totalExpenses := reduce_add (Object_values (expenses (baseData this'))) in
  let spendMultiplier := 1 + spendChange params / 100 in
  let hiringImpact := hiringRate params * 15000 in
  let revenueMultiplier := 1 + revenueGrowth params / 100 in
  let newExpenses := {|
    engineering :=
      engineering (expenses (baseData this')) * spendMultiplier + hiringImpact * 0.6;
    marketing := marketing (expenses (baseData this')) * spendMultiplier;
    sales := sales (expenses (baseData this')) * spendMultiplier + hiringImpact * 0.3;
    operations :=
      operations (expenses (baseData this')) * spendMultiplier + hiringImpact * 0.1;
    aws := aws (expenses (baseData this')) * (1 + spendChange params / 200)
  |} in
  let newTotalExpenses := reduce_add (Object_values newExpenses) in
  let newRevenue := revenue (baseData this') * revenueMultiplier in
  let newBurn := newTotalExpenses - newRevenue in
  let newRunway := if newBurn > 0 then cash (baseData this') / newBurn else 99 in
  let newGrowth := growth (baseData this') + revenueGrowth params * 0.4 in
  ({| mrr := newRevenue;
      burn := newBurn;
      runway := Math_max 0 newRunway;
      cash := cash (baseData this');
      expenses := newExpenses;
      growth := newGrowth;
      revenue := newRevenue |},
   this').

Definition getCurrentFinancials (this : MockDataEngine)
  : MockFinancials * MockDataEngine :=
  if (spendChange (currentParams this) === 0)
     && (hiringRate (currentParams this) === 0)
     && (revenueGrowth (currentParams this) === 0)
  then (baseData this, this)
  else applyWhatIf this (currentParams this).

(** The weights table of [calculateCreditScore]. *)
Definition weights : CreditScoreBreakdown.t := {|
  CreditScoreBreakdown.revenueGrowth := 0.25;
  CreditScoreBreakdown.burnStability := 0.15;
  CreditScoreBreakdown.cashRunway := 0.20;
  CreditScoreBreakdown.debtRatio := 0.10;
  CreditScoreBreakdown.paymentReliability := 0.10;
  CreditScoreBreakdown.profitabilityIndex := 0.10;
  CreditScoreBreakdown.liquidityIndex := 0.10
|}.

(** The seven local constants computed at the head of
    [calculateCreditScore], before any weighting. *)
Definition creditFactors (financials : MockFinancials) : CreditScoreBreakdown.t := {|
  CreditScoreBreakdown.revenueGrowth := Math_min 1 (growth financials / 30);
  CreditScoreBreakdown.burnStability :=
    Math_max 0
      (1 - Math_abs (burn financials - burn BASE_FINANCIALS) / burn BASE_FINANCIALS);
  CreditScoreBreakdown.cashRunway := Math_min 1 (runway financials / 12);
  CreditScoreBreakdown.debtRatio := 0.85;
  CreditScoreBreakdown.paymentReliability := 0.92;
  CreditScoreBreakdown.profitabilityIndex :=
    Math_max 0 (1 - burn financials / revenue financials);
  CreditScoreBreakdown.liquidityIndex :=
    Math_min 1 (cash financials / (burn financials * 3))
|}.

Definition calculateCreditScore (financials : MockFinancials) : CreditScore.t :=
  let f := creditFactors financials in
  let revenueGrowth := CreditScoreBreakdown.revenueGrowth f in
  let burnStability := CreditScoreBreakdown.burnStability f in
  let cashRunway := CreditScoreBreakdown.cashRunway f in
  let debtRatio := CreditScoreBreakdown.debtRatio f in
  let paymentReliability := CreditScoreBreakdown.paymentReliability f in
  let profitabilityIndex := CreditScoreBreakdown.profitabilityIndex f in
  let liquidityIndex := CreditScoreBreakdown.liquidityIndex f in
  let score :=
    Math_round
      (1000 *
         (revenueGrowth * CreditScoreBreakdown.revenueGrowth weights +
          burnStability * CreditScoreBreakdown.burnStability weights +
          cashRunway * CreditScoreBreakdown.cashRunway weights +
          debtRatio * CreditScoreBreakdown.debtRatio weights +
          paymentReliability * CreditScoreBreakdown.paymentReliability weights +
          profitabilityIndex * CreditScoreBreakdown.profitabilityIndex weights +
          liquidityIndex * CreditScoreBreakdown.liquidityIndex weights)) in
  {| CreditScore.score := score;
     CreditScore.breakdown := {|
       CreditScoreBreakdown.revenueGrowth :=
         Math_round (revenueGrowth * 1000 * CreditScoreBreakdown.revenueGrowth weights);
       CreditScoreBreakdown.burnStability :=
         Math_round (burnStability * 1000 * CreditScoreBreakdown.burnStability weights);
       CreditScoreBreakdown.cashRunway :=
         Math_round (cashRunway * 1000 * CreditScoreBreakdown.cashRunway weights);
       CreditScoreBreakdown.debtRatio :=
         Math_round (debtRatio * 1000 * CreditScoreBreakdown.debtRatio weights);
       CreditScoreBreakdown.paymentReliability :=
         Math_round
           (paymentReliability * 1000 * CreditScoreBreakdown.paymentReliability weights);
       CreditScoreBreakdown.profitabilityIndex :=
         Math_round
           (profitabilityIndex * 1000 * CreditScoreBreakdown.profitabilityIndex weights);
       CreditScoreBreakdown.liquidityIndex :=
         Math_round (liquidityIndex * 1000 * CreditScoreBreakdown.liquidityIndex weights)
     |} |}.

(** [xs.length] as a number. *)
Definition length_of {A : Type} (xs : list A) : number :=
  Fin (inject_Z (Z.of_nat (List.length xs))).

Definition getFundingReadiness (financials : MockFinancials) : FundingReadiness.t :=
  let factors := [
    {| Factor.name := "Valuation Multiple";
       Factor.score := 72;
       Factor.status := good |};
    {| Factor.name := "Growth Rate";
       Factor.score := Math_round (Math_min 100 ((growth financials / 20) * 100));
       Factor.status := if growth financials > 15 then good else warning |};
    {| Factor.name := "Compliance & Audit";
       Factor.score := 95;
       Factor.status := good |};
    {| Factor.name := "Team Scale";
       Factor.score := 68;
       Factor.status := warning |};
    {| Factor.name := "Cash Runway";
       Factor.score := Math_round ((runway financials / 12) * 100);
       Factor.status :=
         if runway financials > 9 then good
         else if runway financials > 6 then warning
         else critical |}
  ] in
  let avgScore :=
    Math_round
      (fold_left (fun sum f => sum + Factor.score f) factors (Fin 0)
       / length_of factors) in
  let recommendation :=
    if avgScore < 70 then "Delay raise by 2 months for better multiple."
    else if avgScore > 85 then "Strong position — raise at premium valuation."
    else "Ready to raise now." in
  {| FundingReadiness.score := avgScore;
     FundingReadiness.factors := factors;
     FundingReadiness.recommendation := recommendation |}.

End Engine.

(** ** Notions used in the statements *)

(** The engine states a program can observe: a fresh engine, and the engine
    left by any call of one of its two state-touching methods. *)
Inductive reachable : MockDataEngine -> Prop :=
| reachable_new : reachable constructor
| reachable_applyWhatIf this params :
    reachable this -> reachable (snd (applyWhatIf this params))
| reachable_getCurrentFinancials this :
    reachable this -> reachable (snd (getCurrentFinancials this)).

(** The projection of the baseline: the snapshot [applyWhatIf] returns on a
    fresh engine. *)
Definition project (params : WhatIfParams) : MockFinancials :=
  fst (applyWhatIf constructor params).

(** The scenarios the specification names, and three more that the what-if
    sliders or the method's signature allow. *)
Definition zero_params : WhatIfParams :=
  {| spendChange := 0; hiringRate := 0; revenueGrowth := 0 |}.

Definition double_spend : WhatIfParams :=
  {| spendChange := 100; hiringRate := 0; revenueGrowth := 0 |}.

Definition shrink_spend : WhatIfParams :=
  {| spendChange := -50; hiringRate := 0; revenueGrowth := 0 |}.

Definition shrink_revenue : WhatIfParams :=
  {| spendChange := 0; hiringRate := 0; revenueGrowth := -50 |}.

Definition negative_revenue : WhatIfParams :=
  {| spendChange := 0; hiringRate := 0; revenueGrowth := -200 |}.

(** A snapshot with no revenue and no expenses: its burn is zero and its
    runway the sentinel. *)
Definition zero_flow : MockFinancials := {|
  mrr := 0;
  burn := 0;
  runway := 99;
  cash := 527000;
  expenses := {|
    engineering := 0;
    marketing := 0;
    sales := 0;
    operations := 0;
    aws := 0
  |};
  growth := 12.5;
  revenue := 0
|}.

(** The seven entries of a breakdown, in field order. *)
Definition breakdown_values (b : CreditScoreBreakdown.t) : list number :=
  [CreditScoreBreakdown.revenueGrowth b; CreditScoreBreakdown.burnStability b;
   CreditScoreBreakdown.cashRunway b; CreditScoreBreakdown.debtRatio b;
   CreditScoreBreakdown.paymentReliability b;
   CreditScoreBreakdown.profitabilityIndex b;
   CreditScoreBreakdown.liquidityIndex b].

(** The interval [[0,1]]. *)
Definition in_unit (x : number) : Prop := 0 [<=] x /\ x [<=] 1.

(** [clamp(x, lo, hi)] as the specification writes it. *)
Definition clamp (x lo hi : number) : number := Math_min hi (Math_max lo x).

(** The distance between the sum of the seven breakdown values and the
    total score of a credit score. *)
Definition breakdown_gap (cs : CreditScore.t) : number :=
  Math_abs (sub (reduce_add (breakdown_values (CreditScore.breakdown cs)))
                (CreditScore.score cs)).

(** The unweighted arithmetic mean of a list of numbers, as the
    specification words it. *)
Definition mean (xs : list number) : number := div (reduce_add xs) (length_of xs).

Definition is_cash_runway (fa : Factor.t) : bool :=
  String.eqb (Factor.name fa) "Cash Runway".

(** * Properties *)

(** ** Numbers *)

Section NumberFacts.
Implicit Types a b c : number.
Implicit Types x y q : Q.

Lemma same_refl a : a [=] a.
Proof. destruct a; simpl; auto; reflexivity. Qed.

Lemma same_sym a b : a [=] b -> b [=] a.
Proof. destruct a, b; simpl; auto; intros H; symmetry; exact H. Qed.

Lemma same_trans a b c : a [=] b -> b [=] c -> a [=] c.
Proof.
  destruct a, b, c; simpl; auto; try contradiction.
  intros H1 H2; rewrite H1; exact H2.
Qed.

Lemma sameb_same a b : sameb a b = true <-> a [=] b.
Proof.
  destruct a, b; simpl; try apply Qeq_bool_iff;
    split; intros H; try discriminate; try contradiction; auto.
Qed.

(** The boolean [>] of the code against the order of the statements. *)
Lemma gtb_num_lt a b : gtb a b = true <-> b [<] a.
Proof.
  destruct a as [x| | |], b as [y| | |]; simpl;
    try (split; intros H; try discriminate; try contradiction; auto; fail).
  rewrite Qgt_alt.
  destruct (x ?= y); simpl; split; intros H; try discriminate; auto.
Qed.

Lemma gtb_false_iff a b : gtb a b = false <-> ~ b [<] a.
Proof.
  rewrite <- gtb_num_lt. destruct (gtb a b); split; intros H;
    try discriminate; auto. exfalso; apply H; reflexivity.
Qed.

Lemma num_lt_le a b : a [<] b -> a [<=] b.
Proof. destruct a, b; simpl; auto. apply Qlt_le_weak. Qed.

Lemma num_le_not_lt a b : a [<=] b -> ~ b [<] a.
Proof. destruct a, b; simpl; auto. intros H1 H2. lra. Qed.

Lemma Qsign_pos x : 0 < x -> Qsign x = Gt.
Proof. intros H. apply Qgt_alt. exact H. Qed.

Lemma Qsign_neg x : x < 0 -> Qsign x = Lt.
Proof. intros H. apply Qlt_alt. exact H. Qed.

(** A division of finite numbers is the rational quotient unless the
    divisor is zero. *)
Lemma div_Fin_nonzero x y : ~ y == 0 -> div (Fin x) (Fin y) = Fin (x / y).
Proof.
  intros H. unfold div. destruct (Qcompare_spec y 0) as [E|L|G].
  - contradiction.
  - rewrite (Qsign_neg _ L). reflexivity.
  - rewrite (Qsign_pos _ G). reflexivity.
Qed.

Lemma div_Fin_pos x y : 0 < y -> div (Fin x) (Fin y) = Fin (x / y).
Proof.
  intros H. apply div_Fin_nonzero. intros E. rewrite E in H. discriminate.
Qed.

Lemma Qdiv_nonneg x y : 0 <= x -> 0 < y -> 0 <= x / y.
Proof. intros Hx Hy. apply Qle_shift_div_l; [exact Hy|]. lra. Qed.

Lemma div_nonneg a b : 0 [<=] a -> finite b -> 0 [<] b -> 0 [<=] div a b.
Proof.
  destruct a as [x| | |], b as [y| | |]; intros Ha Fb Hb;
    try (destruct Ha; fail); try (destruct Fb; fail).
  - rewrite (div_Fin_pos x y Hb). apply Qdiv_nonneg; assumption.
  - unfold div. rewrite (Qsign_pos y Hb). exact I.
Qed.

Lemma div_pos_nonneg a b : finite a -> 0 [<] a -> 0 [<] b -> 0 [<=] div a b.
Proof.
  destruct a as [x| | |], b as [y| | |]; intros Fa Ha Hb;
    try (destruct Fa; fail); try (destruct Hb; fail).
  - rewrite (div_Fin_pos x y Hb). apply Qdiv_nonneg; [|assumption].
    apply Qlt_le_weak. exact Ha.
  - simpl. lra.
Qed.

Lemma mul_pos a q :
  finite a -> 0 [<] a -> 0 < q -> finite (mul a q) /\ 0 [<] mul a q.
Proof.
  destruct a as [x| | |]; simpl; try tauto.
  intros _ H Hq. split; [exact I|]. nra.
Qed.

Lemma one_minus_le a : 0 [<=] a -> sub 1 a [<=] 1.
Proof. destruct a as [x| | |]; simpl; try tauto. intros H. lra. Qed.

Lemma abs_nonneg a : a <> NaN -> 0 [<=] Math_abs a.
Proof.
  destruct a as [x| | |]; simpl; try tauto. intros _. apply Qabs_nonneg.
Qed.

Lemma sub_not_NaN a q : a <> NaN -> sub a q <> NaN.
Proof. destruct a; simpl; congruence. Qed.

(** [Math.min(1, .)] and [Math.max(0, .)] each clamp one side only. *)
Lemma min1_in_unit a : 0 [<=] a -> in_unit (Math_min 1 a).
Proof.
  unfold in_unit. destruct a as [x| | |]; simpl; try tauto.
  - intros H. destruct (Q.min_spec 1 x) as [[? E]|[? E]]; rewrite E; split; lra.
  - intros _. split; lra.
Qed.

Lemma max0_in_unit a : a [<=] 1 -> in_unit (Math_max 0 a).
Proof.
  unfold in_unit. destruct a as [x| | |]; simpl; try tauto.
  - intros H. destruct (Q.max_spec 0 x) as [[? E]|[? E]]; rewrite E; split; lra.
  - intros _. split; lra.
Qed.

Lemma min1_clamp a : 0 [<=] a -> Math_min 1 a [=] clamp a 0 1.
Proof.
  unfold clamp. destruct a as [x| | |]; simpl; try tauto.
  - intros H. pose proof (Q.max_r 0 x H) as E.
    destruct (Q.min_spec 1 x) as [[? E1]|[? E1]];
      destruct (Q.min_spec 1 (Qmax 0 x)) as [[? E2]|[? E2]]; lra.
  - intros _. reflexivity.
Qed.

(** [Math.round] is monotone: it is at least any integer below its argument
    plus one half. *)
Lemma round_at_least x (z : Z) :
  inject_Z z <= x + 0.5 -> inject_Z z <= inject_Z (Qfloor (x + 0.5)).
Proof.
  intros H. rewrite <- Zle_Qle.
  rewrite <- (Qfloor_Z z). apply Qfloor_resp_le. exact H.
Qed.

End NumberFacts.

(** Reduce the projections of a breakdown record. *)
Ltac breakdown_fields :=
  cbn [CreditScoreBreakdown.revenueGrowth CreditScoreBreakdown.burnStability
       CreditScoreBreakdown.cashRunway CreditScoreBreakdown.debtRatio
       CreditScoreBreakdown.paymentReliability
       CreditScoreBreakdown.profitabilityIndex
       CreditScoreBreakdown.liquidityIndex] in *.

(** Decide a closed conjunction of comparisons of numbers. *)
Ltac evaluate := vm_compute; repeat split; discriminate.

(** ** The engine's state *)

Lemma applyWhatIf_state this params :
  snd (applyWhatIf this params)
  = {| baseData := baseData this; currentParams := params |}.
Proof. reflexivity. Qed.

Lemma getCurrentFinancials_state this : snd (getCurrentFinancials this) = this.
Proof.
  unfold getCurrentFinancials.
  destruct (_ && _).
  - reflexivity.
  - rewrite applyWhatIf_state. destruct this; reflexivity.
Qed.

(** No method ever replaces the base data. *)
Lemma reachable_baseData this : reachable this -> baseData this = BASE_FINANCIALS.
Proof.
  induction 1 as [|this params _ IH|this _ IH].
  - reflexivity.
  - rewrite applyWhatIf_state. exact IH.
  - rewrite getCurrentFinancials_state. exact IH.
Qed.

(** The snapshot [applyWhatIf] returns depends on the engine only through
    its base data. *)
Lemma applyWhatIf_project this params :
  reachable this -> fst (applyWhatIf this params) = project params.
Proof.
  intros H. apply reachable_baseData in H.
  unfold project, applyWhatIf. simpl. rewrite H. reflexivity.
Qed.

(** C10. [getCurrentFinancials] leaves both fields of the engine as they
    were, and calling it again on the engine it leaves returns the same
    snapshot. *)
Theorem getCurrentFinancials_frame this :
  currentParams (snd (getCurrentFinancials this)) = currentParams this
  /\ baseData (snd (getCurrentFinancials this)) = baseData this
  /\ fst (getCurrentFinancials (snd (getCurrentFinancials this)))
     = fst (getCurrentFinancials this).
Proof.
  rewrite getCurrentFinancials_state. repeat split.
Qed.

(** ** The what-if projector *)

(** The guarded division of [applyWhatIf], for any non-negative cash [c]
    and any burn [b], [NaN] and the infinities included. *)
Lemma guarded_runway (c : Q) (b : number) :
  0 <= c ->
  let r := Math_max 0 (if gtb b 0 then div c b else 99) in
  (0 [<] b -> r [=] div c b) /\ (~ 0 [<] b -> r [=] 99) /\ 0 [<=] r.
Proof.
  intros Hc r. subst r.
  destruct (gtb b 0) eqn:E.
  - apply gtb_num_lt in E. destruct b as [q| | |]; simpl in E; try contradiction.
    + rewrite (div_Fin_pos _ _ E). pose proof (Qdiv_nonneg c q Hc E) as Hn.
      simpl. split; [|split].
      * intros _. apply Q.max_r. exact Hn.
      * intros H. contradiction.
      * apply Q.le_max_l.
    + simpl. split; [|split].
      * intros _. apply Q.max_r. lra.
      * intros H. exfalso. apply H. exact I.
      * apply Q.le_max_l.
  - apply gtb_false_iff in E. simpl. split; [|split].
    + intros H. contradiction.
    + intros _. apply Q.max_r. lra.
    + apply Q.le_max_l.
Qed.

(** Every snapshot [applyWhatIf] returns, for any parameters at all, has
    [burn] the sum of its five expense categories minus its revenue, has
    [runway] equal to [cash / burn] when [burn > 0] and to [99] otherwise,
    and has a non-negative [runway]. *)
Lemma applyWhatIf_invariant this params :
  reachable this ->
  let s := fst (applyWhatIf this params) in
  burn s = sub (reduce_add (Object_values (expenses s))) (revenue s)
  /\ (0 [<] burn s -> runway s [=] div (cash s) (burn s))
  /\ (~ 0 [<] burn s -> runway s [=] 99)
  /\ 0 [<=] runway s.
Proof.
  intros H s. subst s. rewrite (applyWhatIf_project _ _ H).
  unfold project, applyWhatIf.
  cbn [fst burn runway cash expenses revenue baseData constructor BASE_FINANCIALS].
  set (b := sub _ _). split; [reflexivity|].
  apply (guarded_runway 527000 b). lra.
Qed.

(** C1. The identity scenario on a fresh engine does not give the baseline
    back: [applyWhatIf] returns burn 40000 and runway 13.175 where
    [BASE_FINANCIALS] stores burn 85000 and runway 6.2, every other field
    being the baseline's; on the same engine [getCurrentFinancials] returns
    [BASE_FINANCIALS] itself. *)
Theorem identity_scenario_burn_runway :
  let s := fst (applyWhatIf mockEngine zero_params) in
  burn s [=] 40000 /\ burn BASE_FINANCIALS [=] 85000
  /\ runway s [=] 13.175 /\ runway BASE_FINANCIALS [=] 6.2
  /\ ~ burn s [=] burn BASE_FINANCIALS
  /\ ~ runway s [=] runway BASE_FINANCIALS
  /\ (mrr s [=] mrr BASE_FINANCIALS
      /\ cash s [=] cash BASE_FINANCIALS
      /\ engineering (expenses s) [=] engineering (expenses BASE_FINANCIALS)
      /\ marketing (expenses s) [=] marketing (expenses BASE_FINANCIALS)
      /\ sales (expenses s) [=] sales (expenses BASE_FINANCIALS)
      /\ operations (expenses s) [=] operations (expenses BASE_FINANCIALS)
      /\ aws (expenses s) [=] aws (expenses BASE_FINANCIALS)
      /\ growth s [=] growth BASE_FINANCIALS
      /\ revenue s [=] revenue BASE_FINANCIALS)
  /\ fst (getCurrentFinancials mockEngine) = BASE_FINANCIALS.
Proof. evaluate. Qed.

(** C2. The baseline constant does not satisfy the burn equation: its
    [burn] is 85000, the sum of its five expense categories, while that sum
    minus its revenue is 40000.  Its [runway] is [cash / burn] for the
    stored burn, and non-negative. *)
Theorem baseline_burn_is_gross :
  burn BASE_FINANCIALS [=] reduce_add (Object_values (expenses BASE_FINANCIALS))
  /\ sub (reduce_add (Object_values (expenses BASE_FINANCIALS)))
         (revenue BASE_FINANCIALS)
     [=] 40000
  /\ ~ burn BASE_FINANCIALS
       [=] sub (reduce_add (Object_values (expenses BASE_FINANCIALS)))
               (revenue BASE_FINANCIALS)
  /\ runway BASE_FINANCIALS [=] div (cash BASE_FINANCIALS) (burn BASE_FINANCIALS)
  /\ 0 [<=] runway BASE_FINANCIALS.
Proof. evaluate. Qed.

(** C5. Doubling spend on the baseline: engineering 90000, marketing 36000,
    sales 24000, operations 14000, aws 4500, expenses totalling 168500,
    burn 168500 - 45000 = 123500 and runway 527000 / 123500, which is 4.27
    to two decimals. *)
Theorem double_spend_scenario this :
  reachable this ->
  let s := fst (applyWhatIf this double_spend) in
  engineering (expenses s) [=] 90000
  /\ marketing (expenses s) [=] 36000
  /\ sales (expenses s) [=] 24000
  /\ operations (expenses s) [=] 14000
  /\ aws (expenses s) [=] 4500
  /\ reduce_add (Object_values (expenses s)) [=] 168500
  /\ burn s [=] sub 168500 45000
  /\ burn s [=] 123500
  /\ runway s [=] div 527000 123500
  /\ 4.265 [<=] runway s /\ runway s [<] 4.275.
Proof.
  intros H s. subst s. rewrite (applyWhatIf_project _ _ H). evaluate.
Qed.

Lemma double_spend_scenario_witness :
  let s := fst (applyWhatIf mockEngine double_spend) in
  burn s [=] 123500 /\ runway s [=] div 527000 123500.
Proof.
  destruct (double_spend_scenario mockEngine reachable_new)
    as (_ & _ & _ & _ & _ & _ & _ & Hb & Hr & _).
  split; assumption.
Defined.

(** C6. With hiring rate and revenue growth at 0, and the burn at
    [spendChange = 0] positive, the projection at [spendChange = 100] has a
    strictly greater burn and a runway that is smaller or equal. *)
Theorem doubling_spend_raises_burn this :
  reachable this ->
  let s0 := fst (applyWhatIf this zero_params) in
  let s100 := fst (applyWhatIf this double_spend) in
  0 [<] burn s0 ->
  burn s0 [<] burn s100 /\ runway s100 [<=] runway s0.
Proof.
  intros H. rewrite !(applyWhatIf_project _ _ H).
  intros s0 s100 _. subst s0 s100. vm_compute. split; [reflexivity | discriminate].
Qed.

Lemma doubling_spend_raises_burn_witness :
  let s0 := fst (applyWhatIf mockEngine zero_params) in
  let s100 := fst (applyWhatIf mockEngine double_spend) in
  burn s0 [<] burn s100 /\ runway s100 [<=] runway s0.
Proof.
  apply (doubling_spend_raises_burn mockEngine reachable_new).
  vm_compute. reflexivity.
Defined.

(** ** The funding-readiness scorer *)

Lemma fold_left_add_map {A} (g : A -> number) (l : list A) (a : number) :
  fold_left (fun acc x => add acc (g x)) l a = fold_left add (map g l) a.
Proof.
  revert a. induction l as [|x l IH]; intros a; simpl.
  - reflexivity.
  - apply IH.
Qed.

Lemma length_of_map {A B} (g : A -> B) (l : list A) :
  length_of (map g l) = length_of l.
Proof. unfold length_of. rewrite length_map. reflexivity. Qed.

(** C7. The overall score of [getFundingReadiness] is the rounded
    unweighted mean of the scores of the five factors it returns. *)
Theorem fundingReadiness_score_is_rounded_mean (financials : MockFinancials) :
  let r := getFundingReadiness financials in
  List.length (FundingReadiness.factors r) = 5%nat
  /\ FundingReadiness.score r
     = Math_round (mean (map Factor.score (FundingReadiness.factors r))).
Proof.
  intros r. split; [reflexivity|].
  unfold mean, reduce_add. rewrite length_of_map, <- fold_left_add_map.
  reflexivity.
Qed.

(** C8. The Cash Runway factor of [getFundingReadiness] scores
    [round(runway / 12 * 100)] with no cap: the score is at least 100 as soon
    as the runway exceeds 12 and above 100 from 12.1 on.  Its status is good
    when [runway > 9], warning when [6 < runway <= 9], critical otherwise. *)
Theorem cash_runway_factor (financials : MockFinancials) :
  exists fa,
    find is_cash_runway (FundingReadiness.factors (getFundingReadiness financials))
    = Some fa
    /\ Factor.score fa = Math_round (mul (div (runway financials) 12) 100)
    /\ (9 [<] runway financials -> Factor.status fa = good)
    /\ (6 [<] runway financials -> runway financials [<=] 9 ->
        Factor.status fa = warning)
    /\ (~ 6 [<] runway financials -> Factor.status fa = critical)
    /\ (12 [<] runway financials -> 100 [<=] Factor.score fa)
    /\ (12.1 [<=] runway financials -> 100 [<] Factor.score fa).
Proof.
  eexists. split; [reflexivity|]. cbn [Factor.score Factor.status].
  split; [reflexivity|].
  split; [|split; [|split; [|split]]].
  - intros H. apply gtb_num_lt in H. rewrite H. reflexivity.
  - intros H6 H9. apply num_le_not_lt, gtb_false_iff in H9.
    apply gtb_num_lt in H6. rewrite H9, H6. reflexivity.
  - intros H6. assert (H9 : ~ 9 [<] runway financials).
    { intros H9. apply H6. destruct (runway financials); simpl in *; auto. lra. }
    apply gtb_false_iff in H6, H9. rewrite H9, H6. reflexivity.
  - destruct (runway financials) as [r| | |];
      [|vm_compute; auto|vm_compute; auto|vm_compute; auto].
    rewrite (div_Fin_pos r 12) by reflexivity.
    cbn [mul Math_round num_le num_lt]. intros H.
    apply (round_at_least _ 100).
    change (100 <= r * (1 # 12) * 100 + 0.5). lra.
  - destruct (runway financials) as [r| | |];
      [|vm_compute; auto|vm_compute; auto|vm_compute; auto].
    rewrite (div_Fin_pos r 12) by reflexivity.
    cbn [mul Math_round num_le num_lt]. intros H.
    apply Qlt_le_trans with (inject_Z 101); [reflexivity|].
    apply (round_at_least _ 101).
    change (101 <= r * (1 # 12) * 100 + 0.5). lra.
Qed.

(** A runway of 99, the projector's sentinel, scores 825. *)
Example cash_runway_factor_sentinel :
  map Factor.score
    (filter is_cash_runway (FundingReadiness.factors (getFundingReadiness zero_flow)))
  = [Fin (inject_Z 825)].
Proof. vm_compute. reflexivity. Qed.

(** ** The credit scorer *)

(** Where each factor of [calculateCreditScore] does lie in [[0,1]]: the
    two constants always, burn stability for any burn that is a number, the
    others under a sign condition on the fields they divide. *)
Lemma creditFactors_range (f : MockFinancials) :
  let fa := creditFactors f in
  (0 [<=] growth f ->
     in_unit (CreditScoreBreakdown.revenueGrowth fa)
     /\ CreditScoreBreakdown.revenueGrowth fa [=] clamp (div (growth f) 30) 0 1)
  /\ (burn f <> NaN -> in_unit (CreditScoreBreakdown.burnStability fa))
  /\ (0 [<=] runway f -> in_unit (CreditScoreBreakdown.cashRunway fa))
  /\ in_unit (CreditScoreBreakdown.debtRatio fa)
  /\ in_unit (CreditScoreBreakdown.paymentReliability fa)
  /\ (finite (burn f) -> 0 [<] burn f -> 0 [<] revenue f ->
      in_unit (CreditScoreBreakdown.profitabilityIndex fa))
  /\ (finite (burn f) -> 0 [<] burn f -> 0 [<=] cash f ->
      in_unit (CreditScoreBreakdown.liquidityIndex fa)
      /\ CreditScoreBreakdown.liquidityIndex fa
         [=] clamp (div (cash f) (mul (burn f) 3)) 0 1).
Proof.
  intros fa. subst fa. unfold creditFactors. breakdown_fields.
  change (burn BASE_FINANCIALS) with (Fin 85000).
  assert (P : forall (a : number) (q : Q), 0 < q -> 0 [<=] a -> 0 [<=] div a q)
    by (intros a q Hq Ha; apply div_nonneg; [exact Ha|exact I|exact Hq]).
  split; [|split; [|split; [|split; [|split; [|split]]]]].
  - intros Hg. split.
    + apply min1_in_unit, P; [reflexivity|exact Hg].
    + apply min1_clamp, P; [reflexivity|exact Hg].
  - intros Hb. apply max0_in_unit, one_minus_le, P; [reflexivity|].
    apply abs_nonneg, sub_not_NaN. exact Hb.
  - intros Hr. apply min1_in_unit, P; [reflexivity|exact Hr].
  - vm_compute. split; discriminate.
  - vm_compute. split; discriminate.
  - intros Fb Hb Hv. apply max0_in_unit, one_minus_le, div_pos_nonneg; assumption.
  - intros Fb Hb Hc.
    destruct (mul_pos (burn f) 3 Fb Hb) as (F3 & H3); [reflexivity|].
    pose proof (div_nonneg _ _ Hc F3 H3) as Hd. split.
    + apply min1_in_unit. exact Hd.
    + apply min1_clamp. exact Hd.
Qed.

(** The stored baseline meets every condition of [creditFactors_range]. *)
Example creditFactors_range_baseline :
  Forall in_unit (breakdown_values (creditFactors BASE_FINANCIALS)).
Proof.
  destruct (creditFactors_range BASE_FINANCIALS)
    as (Hg & Hb & Hr & Hd & Hp & Hi & Hl).
  repeat apply Forall_cons; try apply Forall_nil.
  - apply Hg. vm_compute. discriminate.
  - apply Hb. discriminate.
  - apply Hr. vm_compute. discriminate.
  - exact Hd.
  - exact Hp.
  - apply Hi; vm_compute; reflexivity.
  - apply Hl; vm_compute; try reflexivity; discriminate.
Qed.

(** C3. The factors are not all in [[0,1]].  At the projection for
    [spendChange = -50] the burn is negative, the liquidity index is
    about -100.4 (neither 1 nor the clamped quotient) and the profitability
    index exceeds 1; at the projection for [revenueGrowth = -50] the growth
    is negative and so is the revenue-growth factor, which a clamp to
    [[0,1]] would have made 0. *)
Theorem creditFactors_not_normalized :
  (let f := project shrink_spend in
   burn f [<=] 0
   /\ ~ in_unit (CreditScoreBreakdown.liquidityIndex (creditFactors f))
   /\ ~ CreditScoreBreakdown.liquidityIndex (creditFactors f) [=] 1
   /\ ~ CreditScoreBreakdown.liquidityIndex (creditFactors f)
        [=] clamp (div (cash f) (mul (burn f) 3)) 0 1
   /\ ~ in_unit (CreditScoreBreakdown.profitabilityIndex (creditFactors f)))
  /\ (let f := project shrink_revenue in
      ~ in_unit (CreditScoreBreakdown.revenueGrowth (creditFactors f))
      /\ ~ CreditScoreBreakdown.revenueGrowth (creditFactors f)
           [=] clamp (div (growth f) 30) 0 1).
Proof.
  vm_compute.
  repeat split; intros H;
    first [discriminate
          | destruct H as [H1 H2];
            first [apply H1; reflexivity | apply H2; reflexivity]].
Qed.

(** The score the engine reports for the first of these snapshots. *)
Example creditScore_shrink_spend :
  CreditScore.score (calculateCreditScore (project shrink_spend))
  = Fin (inject_Z (-9453)).
Proof. vm_compute. reflexivity. Qed.

(** C4. The divisions of [calculateCreditScore] are not guarded.  On a
    snapshot with zero burn and zero revenue [burn / revenue] is [NaN] and
    [cash / (burn * 3)] is [Infinity]; the profitability index and the
    score are [NaN].  On the projection for [revenueGrowth = -200] the
    revenue is negative and the profitability index is above 1, not 0.  On
    the projection for [spendChange = -50] the burn is negative and the
    liquidity index is the plain quotient [cash / (burn * 3)], a negative
    number. *)
Theorem creditScore_divisions_unguarded :
  (div (burn zero_flow) (revenue zero_flow) = NaN
   /\ CreditScoreBreakdown.profitabilityIndex (creditFactors zero_flow) = NaN
   /\ div (cash zero_flow) (mul (burn zero_flow) 3) = Infinity
   /\ CreditScore.score (calculateCreditScore zero_flow) = NaN)
  /\ (let f := project negative_revenue in
      revenue f [<] 0
      /\ ~ CreditScoreBreakdown.profitabilityIndex (creditFactors f) [=] 0
      /\ 1 [<] CreditScoreBreakdown.profitabilityIndex (creditFactors f))
  /\ (let f := project shrink_spend in
      burn f [<=] 0
      /\ CreditScoreBreakdown.liquidityIndex (creditFactors f)
         [=] div (cash f) (mul (burn f) 3)
      /\ CreditScoreBreakdown.liquidityIndex (creditFactors f) [<] 0).
Proof. evaluate. Qed.

(** C9. The breakdown values need not sum to within 7 of the total score.
    On the snapshot with zero burn and zero revenue the profitability index
    is [0 / 0]: the total score and the profitability entry of the
    breakdown are both [NaN], so is the distance between the sum of the
    breakdown values and the total, and [NaN] is not at most 7. *)
Theorem breakdown_gap_undefined :
  CreditScore.score (calculateCreditScore zero_flow) = NaN
  /\ CreditScoreBreakdown.profitabilityIndex
       (CreditScore.breakdown (calculateCreditScore zero_flow)) = NaN
  /\ breakdown_gap (calculateCreditScore zero_flow) = NaN
  /\ ~ breakdown_gap (calculateCreditScore zero_flow) [<=] 7.
Proof.
  vm_compute. repeat split. intros H. exact H.
Qed.
